(** * Smart traffic signal optimisation: the detection-to-decision core

    A shallow embedding of [process_frame] and [traffic_logic] of [app.py],
    together with the two upload sections that call them, and the
    properties of the counting loop and of the density thresholds.

    Python integers are unbounded, so counts are in [Z].  A [str] is kept
    as the byte sequence of its UTF-8 encoding, which is injective, so
    equality of strings is equality of the Python strings.  The dictionary
    [vehicle_types] is a [gmap string Z]; display order of its keys plays
    no role in what is proved here.  NumPy arrays are mutable objects
    shared by reference, so frames live in a store and are passed around
    as locations. *)

From stdpp Require Import gmap strings list fin_maps.

Local Open Scope Z_scope.
Local Open Scope string_scope.
Local Open Scope list_scope.

(** ** Values, exceptions and the store *)

(** A decoded frame: its bytes, row-major, three channels. *)
Definition buffer := list Z.

Definition loc := nat.

(** The store of array objects.  [frame.copy()] and the detector allocate
    at the end; nothing is ever freed while a call runs. *)
Definition heap := list buffer.

Inductive exn :=
| KeyError (key : Z)          (* [model.names[cls]] on a missing key *)
| AttributeError              (* [frame.copy()] on [None] *)
| InvalidLoc (l : loc)        (* a reference to no object; never arises in Python *)
| External (msg : string).    (* whatever the detection library raises *)

Inductive res (A : Type) :=
| Ok (a : A)
| Raise (e : exn).
Arguments Ok {A} a.
Arguments Raise {A} e.

(** Computations that read and write the store and may raise. *)
Definition M (A : Type) := heap -> res A * heap.

Definition pure {A} (a : A) : M A := fun h => (Ok a, h).

Definition bind {A B} (c : M A) (k : A -> M B) : M B :=
  fun h => match c h with
           | (Ok a, h') => k a h'
           | (Raise e, h') => (Raise e, h')
           end.

Declare Scope py_scope.
Delimit Scope py_scope with py.
Notation "'let*' p := c 'in' k" := (bind c (fun p => k))
  (at level 10, p pattern, c at level 100, k at level 200) : py_scope.
Local Open Scope py_scope.

(** A Python [for x in xs:] loop whose body updates the loop-carried
    variables [s]. *)
Fixpoint for_each {A S} (xs : list A) (body : A -> S -> M S) (s : S) : M S :=
  match xs with
  | [] => pure s
  | x :: xs' => let* s' := body x s in for_each xs' body s'
  end.

(** ** The detector interface

    The detection model is an external library.  What [process_frame]
    uses of it is taken as a parameter: the class table [model.names],
    [model.predict], and for each result its [boxes] and its [plot()]. *)

Record Box := {
  box_cls : Z;            (* int(box.cls[0]) *)
  box_conf : Qcanon.Qc;   (* the confidence score; the code never reads it *)
  box_xyxy : Qcanon.Qc * Qcanon.Qc * Qcanon.Qc * Qcanon.Qc
                          (* the bounding box; the code never reads it *)
}.

Record Result := {
  boxes : list Box;
  plot : M loc                  (* result.plot(): the location of the drawn image *)
}.

Record Model := {
  names : gmap Z string;
  (* model.predict(source=frame, imgsz=1280, conf=0.25, iou=0.5,
                   classes=[1,2,3,5,7], verbose=False) *)
  predict : option loc -> M (list Result)
}.

(** ** traffic_logic (lines 117-120) *)

Definition traffic_logic (vehicle_count : Z) : string * Z * string :=
  if bool_decide (vehicle_count <= 10) then ("LOW", 15, "🟢 Smooth Traffic")
  else if bool_decide (vehicle_count <= 25) then ("MEDIUM", 30, "🟡 Moderate Traffic")
  else ("HIGH", 45, "🔴 Heavy Congestion").

(** The three components of the returned tuple. *)
Definition tier (n : Z) : string := (traffic_logic n).1.1.
Definition green (n : Z) : Z := (traffic_logic n).1.2.
Definition status (n : Z) : string := (traffic_logic n).2.

(** ** process_frame (lines 99-112) *)

(** [d[k]] on a dictionary. *)
Definition getitem (d : gmap Z string) (k : Z) : M string :=
  fun h => match d !! k with
           | Some v => (Ok v, h)
           | None => (Raise (KeyError k), h)
           end.

(** [frame.copy()]: a new array object with the same bytes. *)
Definition ndarray_copy (frame : option loc) : M loc :=
  fun h => match frame with
           | None => (Raise AttributeError, h)
           | Some l =>
               match h !! l with
               | Some b => (Ok (List.length h), h ++ [b])
               | None => (Raise (InvalidLoc l), h)
               end
           end.

(** Line 102: the dictionary the counting starts from. *)
Definition vehicle_types0 : gmap string Z :=
  {[ "car" := 0; "truck" := 0; "bus" := 0; "motorcycle" := 0; "bicycle" := 0 ]}.

(** Lines 107-111, the body of [for box in result.boxes]; the loop carries
    [vehicle_count] and [vehicle_types]. *)
Definition count_box (model : Model) (box : Box) (st : Z * gmap string Z)
  : M (Z * gmap string Z) :=
  let '(vehicle_count, vehicle_types) := st in
  let cls := box_cls box in
  let* label := getitem (names model) cls in
  match vehicle_types !! label with        (* if label in vehicle_types: *)
  | Some n => pure (vehicle_count + 1, <[label := n + 1]> vehicle_types)
  | None => pure (vehicle_count, vehicle_types)
  end.

(** Lines 105-111, the body of [for result in results]; the loop carries
    [annotated], [vehicle_count] and [vehicle_types]. *)
Definition process_result (model : Model) (result : Result)
    (st : loc * Z * gmap string Z) : M (loc * Z * gmap string Z) :=
  let '(_, vehicle_count, vehicle_types) := st in
  let* annotated := plot result in
  let* (vehicle_count, vehicle_types) :=
    for_each (boxes result) (count_box model) (vehicle_count, vehicle_types) in
  pure (annotated, vehicle_count, vehicle_types).

Definition process_frame (model : Model) (frame : option loc)
  : M (loc * Z * gmap string Z) :=
  let* results := predict model frame in
  let vehicle_count := 0 in
  let vehicle_types := vehicle_types0 in
  let* annotated := ndarray_copy frame in
  let* (annotated, vehicle_count, vehicle_types) :=
    for_each results (process_result model)
             (annotated, vehicle_count, vehicle_types) in
  pure (annotated, vehicle_count, vehicle_types).

(** ** The two upload sections (lines 131-145 and 156-166)

    What a section leaves behind is the set of local variables bound by its
    two calls; the widgets only display them, and the chart at line 171 is
    drawn exactly when they are bound. *)

Record Analysis := {
  annotated_frame : loc;
  vehicle_count : Z;
  vehicle_types : gmap string Z;
  density : string;
  signal_time : Z;
  color_status : string
}.

(** Lines 133-137: [ret, frame = cap.read()] is the argument pair. *)
Definition video_section (model : Model) (ret : bool) (frame : option loc)
  : M (option Analysis) :=
  if ret then
    let* (annotated_frame, vehicle_count, vehicle_types) :=
      process_frame model frame in
    let '(density, signal_time, color_status) := traffic_logic vehicle_count in
    pure (Some {| annotated_frame := annotated_frame;
                  vehicle_count := vehicle_count;
                  vehicle_types := vehicle_types;
                  density := density;
                  signal_time := signal_time;
                  color_status := color_status |})
  else pure None.

(** Lines 154-158: [image] is what [cv2.imdecode] returned. *)
Definition image_section (model : Model) (image : option loc) : M Analysis :=
  let* (annotated_image, vehicle_count, vehicle_types) :=
    process_frame model image in
  let '(density, signal_time, color_status) := traffic_logic vehicle_count in
  pure {| annotated_frame := annotated_image;
          vehicle_count := vehicle_count;
          vehicle_types := vehicle_types;
          density := density;
          signal_time := signal_time;
          color_status := color_status |}.

(** ** The vehicle type chart (lines 171-181)

    [locals] is what the upload section bound, if it bound anything: the
    test ['vehicle_count' in locals()] is [locals <> None].  The chart is
    the dictionary passed to [ax.bar], one bar per key. *)

Definition vehicle_chart (locals : option Analysis) : option (gmap string Z) :=
  match locals with
  | None => None
  | Some a =>
      let filtered_vehicle_types :=
        filter (fun kv : string * Z => 0 < kv.2) (vehicle_types a) in
      if decide (filtered_vehicle_types = ∅) then None   (* an empty dict is falsy *)
      else Some filtered_vehicle_types
  end.

(** ** The main page (lines 125-181) *)

(** The values the widgets hand to one run of the script. *)
Record Widgets := {
  clicked : bool;                 (* st.button("Enter System"), line 47 *)
  radio_option : string;          (* option = st.sidebar.radio(...), line 94 *)
  (* the uploaded video, if any, as what [cap.read()] yields for it *)
  uploaded_video : option (bool * option loc);
  (* the uploaded image, if any, as what [cv2.imdecode] yields for it *)
  uploaded_image : option (option loc)
}.

Definition main_page (model : Model) (w : Widgets)
  : M (option Analysis * option (gmap string Z)) :=
  let* locals :=
    if decide (radio_option w = "Upload Video") then
      match uploaded_video w with
      | Some (ret, frame) => video_section model ret frame
      | None => pure None
      end
    else if decide (radio_option w = "Upload Image") then
      match uploaded_image w with
      | Some image => let* a := image_section model image in pure (Some a)
      | None => pure None
      end
    else pure None in
  pure (locals, vehicle_chart locals).

(** ** One run of the script (lines 16-55) *)

Inductive outcome :=
| Rerun                           (* st.rerun(), line 49 *)
| Stopped                         (* the welcome page, then st.stop(), line 50 *)
| Rendered (locals : option Analysis) (chart : option (gmap string Z))
| Blank.                          (* the page is neither of the two *)

(** The session state after the run, and what the run does. *)
Definition script (model : Model) (session_state : gmap string string)
    (w : Widgets) : gmap string string * M outcome :=
  let session_state :=
    match session_state !! "page" with    (* if "page" not in st.session_state: *)
    | None => <["page" := "welcome"]> session_state
    | Some _ => session_state
    end in
  if decide (session_state !! "page" = Some "welcome") then
    if clicked w then (<["page" := "main"]> session_state, pure Rerun)
    else (session_state, pure Stopped)
  else if decide (session_state !! "page" = Some "main") then
    (session_state,
     let* (locals, chart) := main_page model w in pure (Rendered locals chart))
  else (session_state, pure Blank).

(** The session state after a sequence of runs. *)
Definition session_after (model : Model) (session_state : gmap string string)
    (ws : list Widgets) : gmap string string :=
  foldl (fun ss w => (script model ss w).1) session_state ws.

(** ** A concrete detector, for running the definitions *)

Definition coco_names : gmap Z string :=
  {[ 0 := "person"; 1 := "bicycle"; 2 := "car"; 3 := "motorcycle";
     5 := "bus"; 7 := "truck"; 9 := "traffic light" ]}.

Definition mk_box (c : Z) : Box :=
  let q n d := Qcanon.Q2Qc (QArith_base.Qmake n d) in
  {| box_cls := c; box_conf := q 9 10%positive;
     box_xyxy := (q 0 1%positive, q 0 1%positive, q 1 1%positive, q 1 1%positive) |}.

(** A [plot()] that allocates one new image. *)
Definition plot_new (img : buffer) : M loc :=
  fun h => (Ok (List.length h), h ++ [img]).

(** A detector that, whatever the frame, reports one result with the given
    boxes and leaves the store alone. *)
Definition fixed_model (bs : list Box) : Model :=
  {| names := coco_names;
     predict := fun _ => pure [ {| boxes := bs; plot := plot_new [7] |} ] |}.


(** ** Vocabulary for the statements *)

(** All boxes of a prediction, in the order the two loops visit them. *)
Definition detections (rs : list Result) : list Box :=
  concat (map boxes rs).

(** The boxes [model.predict] reports for [frame] in store [h]. *)
Definition detected (model : Model) (frame : option loc) (h : heap) : list Box :=
  match predict model frame h with
  | (Ok rs, _) => detections rs
  | (Raise _, _) => []
  end.

(** The five counted class names. *)
Definition whitelist : gset string :=
  {[ "car"; "truck"; "bus"; "motorcycle"; "bicycle" ]}.

(** The class table has a name for the box's class id. *)
Definition named (model : Model) (b : Box) : Prop :=
  is_Some (names model !! box_cls b).

(** How many of the boxes [bs] carry the class name [k]. *)
Definition class_count (model : Model) (k : string) (bs : list Box) : Z :=
  Z.of_nat (List.length (filter (fun b => names model !! box_cls b = Some k) bs)).

(** The box's class name is a key of [t]. *)
Definition counted (model : Model) (t : gmap string Z) (b : Box) : Prop :=
  exists k, names model !! box_cls b = Some k /\ is_Some (t !! k).

Global Instance counted_dec model t b : Decision (counted model t b).
Proof.
  unfold counted. destruct (names model !! box_cls b) as [k |].
  - destruct (decide (is_Some (t !! k))) as [Hk | Hk].
    + left. eauto.
    + right. intros (k' & [= <-] & Hk'). contradiction.
  - right. intros (k' & [=] & _).
Defined.

(** How many of the boxes [bs] carry a class name that is a key of [t]. *)
Definition total (model : Model) (t : gmap string Z) (bs : list Box) : Z :=
  Z.of_nat (List.length (filter (counted model t) bs)).

(** [t] with every entry raised by the number of boxes of its class. *)
Definition tally (model : Model) (bs : list Box) (t : gmap string Z)
  : gmap string Z :=
  map_imap (fun k n => Some (n + class_count model k bs)) t.

(** The box's class name is one of the five counted ones. *)
Definition is_vehicle (model : Model) (b : Box) : Prop :=
  exists k, names model !! box_cls b = Some k /\ k ∈ whitelist.

Global Instance is_vehicle_dec model b : Decision (is_vehicle model b).
Proof.
  unfold is_vehicle. destruct (names model !! box_cls b) as [k |].
  - destruct (decide (k ∈ whitelist)) as [Hk | Hk].
    + left. eauto.
    + right. intros (k' & [= <-] & Hk'). contradiction.
  - right. intros (k' & [=] & _).
Defined.

(** A computation that leaves the live object at [l] as it is. *)
Definition keeps {A} (l : loc) (c : M A) : Prop :=
  forall h b, h !! l = Some b -> (c h).2 !! l = Some b.

(** A computation whose returned array did not exist before the call. *)
Definition returns_new (c : M loc) : Prop :=
  forall h a h', c h = (Ok a, h') -> h !! a = None.

(** What the detection library promises about the frame at [l]: neither
    [predict] nor any [plot()] writes to it, and [plot()] draws on an array
    of its own. *)
Record detector_contract (model : Model) (l : loc) : Prop := {
  predict_keeps : keeps l (predict model (Some l));
  plot_keeps : forall h rs h', predict model (Some l) h = (Ok rs, h') ->
                               Forall (fun r => keeps l (plot r)) rs;
  plot_new_array : forall h rs h', predict model (Some l) h = (Ok rs, h') ->
                                   Forall (fun r => returns_new (plot r)) rs
}.

(** Every [plot()] of the list returns normally. *)
Definition plots_return (rs : list Result) : Prop :=
  Forall (fun r => forall h, exists a h', plot r h = (Ok a, h')) rs.

(** The class id of the first box without a name, if there is one. *)
Fixpoint first_unnamed (model : Model) (bs : list Box) : option Z :=
  match bs with
  | [] => None
  | b :: bs' =>
      match names model !! box_cls b with
      | None => Some (box_cls b)
      | Some _ => first_unnamed model bs'
      end
  end.

(** The height of the bar for class [k], 0 when the chart has no such bar. *)
Definition bar (chart : gmap string Z) (k : string) : Z :=
  default 0 (chart !! k).

(** Sample inputs: a stored frame, and a detector reporting two cars, a
    person, a bus and a truck. *)
Definition demo_heap : heap := [[10; 20; 30]].
Definition demo_boxes : list Box := map mk_box [2; 2; 0; 5; 7].
Definition demo_model : Model := fixed_model demo_boxes.

(** * Properties *)

Example run_scenario5 :
  fst (image_section (fixed_model (map mk_box [2;2;0;5;2;5;2;0;5;2])) (Some 0%nat) [[1;2;3]])
  = Ok {| annotated_frame := 2%nat; vehicle_count := 8;
          vehicle_types := {[ "car" := 5; "truck" := 0; "bus" := 3; "motorcycle" := 0; "bicycle" := 0 ]};
          density := "LOW"; signal_time := 15; color_status := "🟢 Smooth Traffic" |}.
Proof. vm_compute. reflexivity. Qed.

Example run_scenario3 :
  fst (image_section (fixed_model (map mk_box (replicate 11 2))) (Some 0%nat) demo_heap)
  = Ok {| annotated_frame := 2%nat; vehicle_count := 11;
          vehicle_types := {[ "car" := 11; "truck" := 0; "bus" := 0; "motorcycle" := 0; "bicycle" := 0 ]};
          density := "MEDIUM"; signal_time := 30; color_status := "🟡 Moderate Traffic" |}.
Proof. vm_compute. reflexivity. Qed.

Example run_scenario4 :
  fst (video_section (fixed_model (map mk_box (replicate 15 2 ++ replicate 12 7)))
         true (Some 0%nat) demo_heap)
  = Ok (Some {| annotated_frame := 2%nat; vehicle_count := 27;
          vehicle_types := {[ "car" := 15; "truck" := 12; "bus" := 0; "motorcycle" := 0; "bicycle" := 0 ]};
          density := "HIGH"; signal_time := 45; color_status := "🔴 Heavy Congestion" |}).
Proof. vm_compute. reflexivity. Qed.

(** A class id outside the class table stops the call. *)
Example run_unnamed_class :
  fst (process_frame (fixed_model (map mk_box [2; 4; 2])) (Some 0%nat) demo_heap)
  = Raise (KeyError 4).
Proof. vm_compute. reflexivity. Qed.

(** ** Properties of traffic_logic *)

Section TrafficLogic.

Lemma traffic_logic_low n :
  n <= 10 -> traffic_logic n = ("LOW", 15, "🟢 Smooth Traffic").
Proof. intros Hn. unfold traffic_logic. by rewrite bool_decide_true. Qed.

Lemma traffic_logic_medium n :
  11 <= n <= 25 -> traffic_logic n = ("MEDIUM", 30, "🟡 Moderate Traffic").
Proof.
  intros Hn. unfold traffic_logic.
  rewrite bool_decide_false by lia. by rewrite bool_decide_true by lia.
Qed.

Lemma traffic_logic_high n :
  26 <= n -> traffic_logic n = ("HIGH", 45, "🔴 Heavy Congestion").
Proof.
  intros Hn. unfold traffic_logic.
  rewrite bool_decide_false by lia. by rewrite bool_decide_false by lia.
Qed.

(** Every integer falls in exactly one of the three ranges. *)
Lemma traffic_logic_cases n :
  (n <= 10 /\ traffic_logic n = ("LOW", 15, "🟢 Smooth Traffic")) \/
  (11 <= n <= 25 /\ traffic_logic n = ("MEDIUM", 30, "🟡 Moderate Traffic")) \/
  (26 <= n /\ traffic_logic n = ("HIGH", 45, "🔴 Heavy Congestion")).
Proof.
  destruct (decide (n <= 10)); [left; auto using traffic_logic_low |].
  destruct (decide (n <= 25)).
  - right; left. split; [lia | apply traffic_logic_medium; lia].
  - right; right. split; [lia | apply traffic_logic_high; lia].
Qed.

End TrafficLogic.

(** C1. For every non-negative count [n] the density returned by
    [traffic_logic] is LOW exactly when [n <= 10], MEDIUM exactly when
    [11 <= n <= 25] and HIGH exactly when [n >= 26]; the boundary counts 10,
    11, 25 and 26 give LOW, MEDIUM, MEDIUM and HIGH. *)
Theorem tier_thresholds (n : Z) :
  0 <= n ->
  (tier n = "LOW" <-> n <= 10) /\
  (tier n = "MEDIUM" <-> 11 <= n <= 25) /\
  (tier n = "HIGH" <-> 26 <= n) /\
  tier 10 = "LOW" /\ tier 11 = "MEDIUM" /\ tier 25 = "MEDIUM" /\ tier 26 = "HIGH".
Proof.
  intros _. unfold tier.
  destruct (traffic_logic_cases n) as [[Hn ->] | [[Hn ->] | [Hn ->]]]; simpl;
    repeat split; intros; try lia; try discriminate; reflexivity.
Qed.

Lemma tier_thresholds_witness :
  0 <= 25 /\
  (tier 25 = "MEDIUM" <-> 11 <= 25 <= 25) /\ tier 26 = "HIGH".
Proof.
  split; [lia |].
  destruct (tier_thresholds 25) as (_ & Hm & _ & _ & _ & _ & Hb); [lia |].
  split; [exact Hm | exact Hb].
Defined.

(** C2, as the code has it.  The lookup from tier to duration and label is
    part of [traffic_logic]: it returns one of exactly three rows, each row
    is returned for some count, and the status labels carry a leading
    coloured-circle emoji and a space. *)
Theorem traffic_logic_rows :
  (forall n : Z,
      traffic_logic n = ("LOW", 15, "🟢 Smooth Traffic") \/
      traffic_logic n = ("MEDIUM", 30, "🟡 Moderate Traffic") \/
      traffic_logic n = ("HIGH", 45, "🔴 Heavy Congestion")) /\
  traffic_logic 0 = ("LOW", 15, "🟢 Smooth Traffic") /\
  traffic_logic 11 = ("MEDIUM", 30, "🟡 Moderate Traffic") /\
  traffic_logic 26 = ("HIGH", 45, "🔴 Heavy Congestion").
Proof.
  split; [| by repeat split].
  intros n. destruct (traffic_logic_cases n) as [[_ H] | [[_ H] | [_ H]]]; auto.
Qed.

(** C2 as written fails: for a count in the LOW range the label is not the
    bare text. *)
Lemma status_label_has_emoji :
  tier 0 = "LOW" /\ green 0 = 15 /\ status 0 <> "Smooth Traffic".
Proof. repeat split. discriminate. Qed.

(** C10. The green time never decreases when the count grows, over all
    integers, and every integer, negative ones included, gets one of the
    three tiers. *)
Theorem green_monotone (m n : Z) :
  m <= n ->
  green m <= green n /\
  (tier m = "LOW" \/ tier m = "MEDIUM" \/ tier m = "HIGH").
Proof.
  intros Hmn. unfold green, tier.
  destruct (traffic_logic_cases m) as [[Hm ->] | [[Hm ->] | [Hm ->]]];
    destruct (traffic_logic_cases n) as [[Hn ->] | [[Hn ->] | [Hn ->]]];
    simpl; split; try lia; auto.
Qed.

Lemma green_monotone_witness :
  (-5) <= 30 /\ green (-5) <= green 30 /\ tier (-5) = "LOW".
Proof.
  split; [lia |].
  split; [apply (green_monotone (-5) 30); lia | reflexivity].
Defined.

(** ** The counting loops *)

Lemma for_each_cons {A S} (x : A) xs (body : A -> S -> M S) s h :
  for_each (x :: xs) body s h =
    match body x s h with
    | (Ok s', h') => for_each xs body s' h'
    | (Raise e, h') => (Raise e, h')
    end.
Proof. reflexivity. Qed.

Section Counting.
Variable model : Model.

Lemma dom_vehicle_types0 : dom vehicle_types0 = whitelist.
Proof. unfold vehicle_types0, whitelist. rewrite !dom_insert_L. set_solver. Qed.

(** One box whose class has a name: the step is a pure update. *)
Lemma count_box_named box c t h label :
  names model !! box_cls box = Some label ->
  count_box model box (c, t) h =
    (Ok match t !! label with
        | Some n => (c + 1, <[label := n + 1]> t)
        | None => (c, t)
        end, h).
Proof.
  intros Hl. unfold count_box, bind, getitem. rewrite Hl.
  by destruct (t !! label).
Qed.

Lemma count_box_unnamed box st h :
  names model !! box_cls box = None ->
  count_box model box st h = (Raise (KeyError (box_cls box)), h).
Proof.
  intros Hl. destruct st as [c t]. unfold count_box, bind, getitem.
  by rewrite Hl.
Qed.

(** Counting never touches the store. *)
Lemma count_boxes_heap bs st h :
  (for_each bs (count_box model) st h).2 = h.
Proof.
  revert st. induction bs as [| b bs IH]; intros [c t]; [done |].
  rewrite for_each_cons.
  destruct (names model !! box_cls b) as [label |] eqn:Hl.
  - rewrite (count_box_named _ _ _ _ _ Hl). destruct (t !! label); apply IH.
  - by rewrite count_box_unnamed.
Qed.

Lemma tally_nil t : tally model [] t = t.
Proof.
  apply map_eq. intros k. unfold tally, class_count. rewrite map_lookup_imap.
  destruct (t !! k) as [n |]; simpl; [f_equal; lia | done].
Qed.

Lemma lookup_tally bs t k :
  tally model bs t !! k = (fun n => n + class_count model k bs) <$> t !! k.
Proof. unfold tally. rewrite map_lookup_imap. by destruct (t !! k). Qed.

Lemma dom_tally bs t : dom (tally model bs t) = dom t.
Proof.
  apply set_eq. intros k. rewrite !elem_of_dom, lookup_tally.
  by rewrite fmap_is_Some.
Qed.

Lemma class_count_cons k b bs :
  class_count model k (b :: bs) =
    (if decide (names model !! box_cls b = Some k) then 1 else 0)
    + class_count model k bs.
Proof.
  unfold class_count. rewrite filter_cons.
  destruct (decide _); simpl; lia.
Qed.

Lemma class_count_app k bs1 bs2 :
  class_count model k (bs1 ++ bs2) =
    class_count model k bs1 + class_count model k bs2.
Proof. unfold class_count. rewrite filter_app, length_app. lia. Qed.

Lemma tally_app bs1 bs2 t :
  tally model (bs1 ++ bs2) t = tally model bs2 (tally model bs1 t).
Proof.
  apply map_eq. intros k. rewrite !lookup_tally, class_count_app.
  destruct (t !! k); simpl; [f_equal; lia | done].
Qed.

Lemma counted_same_dom t1 t2 b :
  dom t1 = dom t2 -> counted model t1 b <-> counted model t2 b.
Proof.
  intros Hd. unfold counted.
  split; intros (k & Hk & Hs); exists k; split; auto;
    apply elem_of_dom; apply elem_of_dom in Hs; congruence.
Qed.

Lemma total_same_dom t1 t2 bs :
  dom t1 = dom t2 -> total model t1 bs = total model t2 bs.
Proof.
  intros Hd. unfold total. do 2 f_equal.
  apply list_filter_iff. intros b. by apply counted_same_dom.
Qed.

Lemma total_cons t b bs :
  total model t (b :: bs) =
    (if decide (counted model t b) then 1 else 0) + total model t bs.
Proof. unfold total. rewrite filter_cons. destruct (decide _); simpl; lia. Qed.

Lemma total_app t bs1 bs2 :
  total model t (bs1 ++ bs2) = total model t bs1 + total model t bs2.
Proof. unfold total. rewrite filter_app, length_app. lia. Qed.

(** The step, in terms of [total] and [tally]. *)
Lemma count_box_tally box c t h :
  named model box ->
  count_box model box (c, t) h =
    (Ok (c + total model t [box], tally model [box] t), h).
Proof.
  intros [label Hl]. rewrite (count_box_named _ _ _ _ _ Hl).
  rewrite total_cons. unfold total at 1. simpl.
  destruct (t !! label) as [n |] eqn:Ht.
  - rewrite decide_True by (exists label; eauto).
    replace (c + (1 + Z.of_nat 0)) with (c + 1) by lia.
    replace (tally model [box] t) with (<[label := n + 1]> t); [done |].
    apply map_eq. intros k. rewrite lookup_tally, class_count_cons.
    unfold class_count at 1. simpl. rewrite Hl.
    destruct (decide (label = k)) as [-> | Hne].
    + rewrite lookup_insert_eq, Ht, decide_True by done. simpl; f_equal; lia.
    + rewrite lookup_insert_ne by done.
      rewrite decide_False by congruence.
      destruct (t !! k); simpl; [f_equal; lia | done].
  - rewrite decide_False.
    2:{ intros (k & Hk & Hs). rewrite Hl in Hk. injection Hk as <-.
        rewrite Ht in Hs. by destruct Hs. }
    replace (c + (0 + Z.of_nat 0)) with c by lia.
    replace (tally model [box] t) with t; [done |].
    apply map_eq. intros k. rewrite lookup_tally, class_count_cons.
    unfold class_count at 1. simpl. rewrite Hl.
    destruct (decide (Some label = Some k)) as [[= <-] | Hne].
    + by rewrite Ht.
    + destruct (t !! k); simpl; [f_equal; lia | done].
Qed.

(** The inner loop over boxes that all have names. *)
Lemma count_boxes_tally bs c t h :
  Forall (named model) bs ->
  for_each bs (count_box model) (c, t) h =
    (Ok (c + total model t bs, tally model bs t), h).
Proof.
  intros Hn. revert c t. induction Hn as [| b bs Hb _ IH]; intros c t.
  - simpl. unfold pure, total. simpl. rewrite tally_nil, Z.add_0_r. done.
  - rewrite for_each_cons, (count_box_tally _ _ _ _ Hb), IH.
    rewrite (total_same_dom (tally model [b] t) t) by apply dom_tally.
    change (b :: bs) with ([b] ++ bs).
    rewrite total_app, tally_app, Z.add_assoc. done.
Qed.

(** If the inner loop returns, every box had a name. *)
Lemma count_boxes_ok_named bs st st' h h' :
  for_each bs (count_box model) st h = (Ok st', h') ->
  Forall (named model) bs.
Proof.
  revert st h. induction bs as [| b bs IH]; intros [c t] h Hrun; [constructor |].
  rewrite for_each_cons in Hrun.
  destruct (names model !! box_cls b) as [label |] eqn:Hl.
  - rewrite (count_box_named _ _ _ _ _ Hl) in Hrun.
    constructor; [by exists label | eauto].
  - by rewrite count_box_unnamed in Hrun.
Qed.

End Counting.

(** ** The loop over results and the whole function *)

Section ProcessFrame.
Variable model : Model.

Lemma process_result_run r a c t h :
  process_result model r (a, c, t) h =
    match plot r h with
    | (Ok a', h1) =>
        match for_each (boxes r) (count_box model) (c, t) h1 with
        | (Ok (c', t'), h2) => (Ok (a', c', t'), h2)
        | (Raise e, h2) => (Raise e, h2)
        end
    | (Raise e, h1) => (Raise e, h1)
    end.
Proof.
  unfold process_result, bind.
  destruct (plot r h) as [[a' | e] h1]; [| done].
  by destruct (for_each _ _ _ h1) as [[[c' t'] | e] h2].
Qed.

(** What the loop over results has computed when it returns. *)
Lemma process_results_ok rs a c t h a' c' t' h' :
  for_each rs (process_result model) (a, c, t) h = (Ok (a', c', t'), h') ->
  Forall (named model) (detections rs) /\
  c' = c + total model t (detections rs) /\
  t' = tally model (detections rs) t.
Proof.
  revert a c t h. induction rs as [| r rs IH]; intros a c t h Hrun.
  - injection Hrun as <- <- <- <-. unfold detections, total. simpl.
    rewrite tally_nil. split; [constructor | split; [lia | done]].
  - rewrite for_each_cons, process_result_run in Hrun.
    destruct (plot r h) as [[a1 | e] h1]; [| done].
    destruct (for_each (boxes r) _ _ h1) as [[[c1 t1] | e] h2] eqn:Hin; [| done].
    pose proof (count_boxes_ok_named _ _ _ _ _ _ Hin) as Hnamed.
    rewrite (count_boxes_tally _ _ _ _ _ Hnamed) in Hin.
    injection Hin as <- <- <-.
    apply IH in Hrun as (Hrest & -> & ->).
    unfold detections. simpl. fold (detections rs).
    split; [by apply Forall_app |].
    rewrite (total_same_dom _ (tally model (boxes r) t) t) by apply dom_tally.
    rewrite total_app, tally_app. split; [lia | done].
Qed.

(** The loop over results returns when every plot does and every box
    has a name. *)
Lemma process_results_return rs a c t h :
  plots_return rs ->
  Forall (named model) (detections rs) ->
  exists a' h',
    for_each rs (process_result model) (a, c, t) h =
      (Ok (a', c + total model t (detections rs),
           tally model (detections rs) t), h').
Proof.
  intros Hp. revert a c t h.
  induction Hp as [| r rs Hr _ IH]; intros a c t h Hn.
  - exists a, h. unfold detections, total. simpl.
    by rewrite tally_nil, Z.add_0_r.
  - unfold detections in Hn. simpl in Hn. fold (detections rs) in Hn.
    apply Forall_app in Hn as [Hn1 Hn2].
    destruct (Hr h) as (a1 & h1 & Hplot).
    rewrite for_each_cons, process_result_run, Hplot.
    rewrite (count_boxes_tally _ _ _ _ _ Hn1).
    destruct (IH a1 (c + total model t (boxes r)) (tally model (boxes r) t) h1 Hn2)
      as (a' & h' & ->).
    exists a', h'. unfold detections. simpl. fold (detections rs).
    rewrite (total_same_dom _ (tally model (boxes r) t) t) by apply dom_tally.
    by rewrite total_app, tally_app, Z.add_assoc.
Qed.

(** When [process_frame] returns, the frame was an array, the prediction
    succeeded, and count and dictionary are those of the reported boxes
    counted from zero. *)
Lemma process_frame_ok frame h a c t hf :
  process_frame model frame h = (Ok (a, c, t), hf) ->
  Forall (named model) (detected model frame h) /\
  c = total model vehicle_types0 (detected model frame h) /\
  t = tally model (detected model frame h) vehicle_types0.
Proof.
  unfold process_frame, detected, bind. intros Hrun.
  destruct (predict model frame h) as [[rs | e] h1]; [| done].
  destruct (ndarray_copy frame h1) as [[a0 | e] h2]; [| done].
  destruct (for_each rs _ _ h2) as [[[[a1 c1] t1] | e] h3] eqn:Hloop; [| done].
  injection Hrun as <- <- <- <-.
  apply process_results_ok in Hloop as (Hn & -> & ->).
  split; [done | split; [lia | done]].
Qed.

(** [process_frame] returns when the prediction does, the frame is a live
    array afterwards, every plot returns and every box has a name. *)
Lemma process_frame_returns l h rs h1 b :
  predict model (Some l) h = (Ok rs, h1) ->
  h1 !! l = Some b ->
  plots_return rs ->
  Forall (named model) (detections rs) ->
  exists a hf,
    process_frame model (Some l) h =
      (Ok (a, total model vehicle_types0 (detections rs),
           tally model (detections rs) vehicle_types0), hf).
Proof.
  intros Hpred Hl Hp Hn. unfold process_frame, bind, ndarray_copy.
  rewrite Hpred, Hl.
  destruct (process_results_return rs (List.length h1) 0 vehicle_types0
              (h1 ++ [b]) Hp Hn) as (a & hf & ->).
  by exists a, hf.
Qed.

End ProcessFrame.

(** ** Counts per class *)

Section Whitelist.
Variable model : Model.

Lemma counted_whitelist b k :
  names model !! box_cls b = Some k ->
  counted model vehicle_types0 b <-> k ∈ whitelist.
Proof.
  intros Hk. rewrite <- dom_vehicle_types0, elem_of_dom. unfold counted.
  split; [intros (k' & Hk' & Hs); congruence | eauto].
Qed.

Lemma counted_unnamed t b :
  names model !! box_cls b = None -> ~ counted model t b.
Proof. intros Hk (k & Hk' & _). congruence. Qed.

(** The total is the sum of the five class counts. *)
Lemma total_whitelist bs :
  total model vehicle_types0 bs =
    class_count model "car" bs + class_count model "truck" bs
    + class_count model "bus" bs + class_count model "motorcycle" bs
    + class_count model "bicycle" bs.
Proof.
  induction bs as [| b bs IH]; [done |].
  rewrite total_cons, !class_count_cons, IH.
  destruct (names model !! box_cls b) as [k |] eqn:Hk.
  - pose proof (counted_whitelist b k Hk) as Hw. unfold whitelist in Hw.
    destruct (decide (counted model vehicle_types0 b)) as [Hc | Hc].
    + rewrite Hw, !elem_of_union, !elem_of_singleton in Hc.
      destruct Hc as [[[[-> | ->] | ->] | ->] | ->];
        repeat case_decide; simplify_eq; lia.
    + rewrite Hw, !not_elem_of_union, !not_elem_of_singleton in Hc.
      destruct Hc as ((((? & ?) & ?) & ?) & ?).
      repeat case_decide; simplify_eq; lia.
  - rewrite decide_False by by apply counted_unnamed.
    repeat case_decide; simplify_eq; lia.
Qed.

(** The dictionary holds exactly the five class counts. *)
Lemma tally_whitelist bs :
  tally model bs vehicle_types0 =
    {[ "car" := class_count model "car" bs;
       "truck" := class_count model "truck" bs;
       "bus" := class_count model "bus" bs;
       "motorcycle" := class_count model "motorcycle" bs;
       "bicycle" := class_count model "bicycle" bs ]}.
Proof.
  apply map_eq. intros k. rewrite lookup_tally. unfold vehicle_types0.
  destruct (decide (k = "car")) as [-> | ?]; [by simplify_map_eq |].
  destruct (decide (k = "truck")) as [-> | ?]; [by simplify_map_eq |].
  destruct (decide (k = "bus")) as [-> | ?]; [by simplify_map_eq |].
  destruct (decide (k = "motorcycle")) as [-> | ?]; [by simplify_map_eq |].
  destruct (decide (k = "bicycle")) as [-> | ?]; [by simplify_map_eq |].
  by simplify_map_eq.
Qed.

End Whitelist.

(** [class_count], [total] and [tally] look at the model only through its
    class table, and do not depend on the order of the boxes. *)
Lemma class_count_perm m m' k bs bs' :
  names m = names m' -> bs ≡ₚ bs' -> class_count m k bs = class_count m' k bs'.
Proof. intros Hn Hp. unfold class_count. by rewrite Hn, Hp. Qed.

Lemma total_perm m m' t bs bs' :
  names m = names m' -> bs ≡ₚ bs' -> total m t bs = total m' t bs'.
Proof.
  intros Hn Hp. unfold total. rewrite Hp. do 2 f_equal.
  apply list_filter_iff. intros b. unfold counted. by rewrite Hn.
Qed.

Lemma tally_perm m m' t bs bs' :
  names m = names m' -> bs ≡ₚ bs' -> tally m bs t = tally m' bs' t.
Proof.
  intros Hn Hp. apply map_eq. intros k.
  by rewrite !lookup_tally, (class_count_perm m m' k bs bs').
Qed.

Lemma total_is_vehicle m bs :
  total m vehicle_types0 bs = Z.of_nat (List.length (filter (is_vehicle m) bs)).
Proof.
  unfold total. do 2 f_equal. apply list_filter_iff. intros b.
  destruct (names m !! box_cls b) as [k |] eqn:Hk.
  - rewrite (counted_whitelist m b k Hk). unfold is_vehicle. rewrite Hk.
    split; [eauto | by intros (k' & [= <-] & ?)].
  - split; [intros Hc; by apply counted_unnamed in Hc |].
    intros (k & Hk' & _). congruence.
Qed.

(** ** Aggregation *)

(** C3. Whenever [process_frame] returns, its dictionary has exactly the
    five class names as keys, each holding the number of reported boxes of
    that class, the total is the sum of these five counts, and the total is
    the number of reported boxes whose class name is one of the five: a box
    of any other class adds nothing. *)
Theorem total_is_sum_of_class_counts m frame h a c t hf :
  process_frame m frame h = (Ok (a, c, t), hf) ->
  exists car truck bus motorcycle bicycle : Z,
    t = {[ "car" := car; "truck" := truck; "bus" := bus;
           "motorcycle" := motorcycle; "bicycle" := bicycle ]} /\
    c = car + truck + bus + motorcycle + bicycle /\
    car = class_count m "car" (detected m frame h) /\
    truck = class_count m "truck" (detected m frame h) /\
    bus = class_count m "bus" (detected m frame h) /\
    motorcycle = class_count m "motorcycle" (detected m frame h) /\
    bicycle = class_count m "bicycle" (detected m frame h) /\
    dom t = whitelist /\
    c = Z.of_nat (List.length (filter (is_vehicle m) (detected m frame h))).
Proof.
  intros Hrun. apply process_frame_ok in Hrun as (_ & -> & ->).
  eexists _, _, _, _, _.
  split; [apply tally_whitelist |].
  split; [apply total_whitelist |].
  do 5 (split; [reflexivity |]).
  split; [by rewrite dom_tally, dom_vehicle_types0 | apply total_is_vehicle].
Qed.

Lemma total_is_sum_of_class_counts_witness :
  process_frame demo_model (Some 0%nat) demo_heap =
    (Ok (2%nat, 4,
         {[ "car" := 2; "truck" := 1; "bus" := 1; "motorcycle" := 0;
            "bicycle" := 0 ]}),
     [[10; 20; 30]; [10; 20; 30]; [7]]) /\
  exists car truck bus motorcycle bicycle : Z,
    ({[ "car" := 2; "truck" := 1; "bus" := 1; "motorcycle" := 0;
        "bicycle" := 0 ]} : gmap string Z) =
      {[ "car" := car; "truck" := truck; "bus" := bus;
         "motorcycle" := motorcycle; "bicycle" := bicycle ]} /\
    4 = car + truck + bus + motorcycle + bicycle.
Proof.
  assert (Hrun : process_frame demo_model (Some 0%nat) demo_heap =
    (Ok (2%nat, 4,
         {[ "car" := 2; "truck" := 1; "bus" := 1; "motorcycle" := 0;
            "bicycle" := 0 ]}),
     [[10; 20; 30]; [10; 20; 30]; [7]])) by (vm_compute; reflexivity).
  split; [exact Hrun |].
  destruct (total_is_sum_of_class_counts _ _ _ _ _ _ _ Hrun)
    as (car & truck & bus & motorcycle & bicycle & Ht & Hc & _).
  exists car, truck, bus, motorcycle, bicycle. split; [exact Ht | exact Hc].
Defined.

(** C4. One step of the counting loop, in any state the loop can be in
    (the dictionary has the five keys).  A box whose class name is one of
    the five raises that class's entry and the total by exactly one and
    leaves the other entries alone; a box of any other named class changes
    nothing and raises no error.  The step reads the class id only, so the
    confidence and the bounding box have no influence. *)
Theorem count_box_step m box c t h label :
  names m !! box_cls box = Some label ->
  dom t = whitelist ->
  (label ∈ whitelist ->
     exists n, t !! label = Some n /\
       count_box m box (c, t) h = (Ok (c + 1, <[label := n + 1]> t), h)) /\
  (label ∉ whitelist -> count_box m box (c, t) h = (Ok (c, t), h)) /\
  (forall box', box_cls box' = box_cls box ->
     count_box m box' (c, t) h = count_box m box (c, t) h).
Proof.
  intros Hl Hd. repeat split.
  - intros Hin. rewrite <- Hd in Hin. apply elem_of_dom in Hin as [n Hn].
    exists n. split; [done |].
    by rewrite (count_box_named _ _ _ _ _ _ Hl), Hn.
  - intros Hout. rewrite <- Hd in Hout. apply not_elem_of_dom in Hout.
    by rewrite (count_box_named _ _ _ _ _ _ Hl), Hout.
  - intros box' Hcls. rewrite <- Hcls in Hl.
    rewrite (count_box_named _ _ _ _ _ _ Hl). rewrite Hcls in Hl.
    by rewrite (count_box_named _ _ _ _ _ _ Hl).
Qed.

Lemma count_box_step_witness :
  names demo_model !! box_cls (mk_box 0) = Some "person" /\
  dom vehicle_types0 = whitelist /\
  ("person" ∉ whitelist) /\
  count_box demo_model (mk_box 0) (3, vehicle_types0) demo_heap =
    (Ok (3, vehicle_types0), demo_heap).
Proof.
  assert (H1 : names demo_model !! box_cls (mk_box 0) = Some "person")
    by reflexivity.
  assert (H2 : dom vehicle_types0 = whitelist) by (vm_compute; reflexivity).
  assert (H3 : "person" ∉ whitelist)
    by (apply (bool_decide_unpack _); vm_compute; exact I).
  split; [exact H1 |]. split; [exact H2 |]. split; [exact H3 |].
  exact (proj1 (proj2 (count_box_step demo_model (mk_box 0) 3 vehicle_types0
                         demo_heap "person" H1 H2)) H3).
Defined.

(** The box loop itself: if it returns on a list of boxes, it returns the
    same state on every permutation of the list. *)
Lemma count_boxes_perm m bs bs' c t h st' h' :
  bs ≡ₚ bs' ->
  for_each bs (count_box m) (c, t) h = (Ok st', h') ->
  for_each bs' (count_box m) (c, t) h = (Ok st', h').
Proof.
  intros Hp Hrun.
  pose proof (count_boxes_ok_named _ _ _ _ _ _ Hrun) as Hn.
  rewrite (count_boxes_tally _ _ _ _ _ Hn) in Hrun. rewrite <- Hrun.
  assert (Hn' : Forall (named m) bs') by by rewrite <- Hp.
  rewrite (count_boxes_tally _ _ _ _ _ Hn').
  by rewrite (total_perm m m t bs bs'), (tally_perm m m t bs bs').
Qed.

(** C7. The order in which the detector reports the boxes does not matter:
    two runs whose detectors share the class table and report the same
    boxes in different orders return the same total and the same count for
    every class. *)
Theorem tally_order_independent m m' frame frame' h h' a c t hf a' c' t' hf' :
  process_frame m frame h = (Ok (a, c, t), hf) ->
  process_frame m' frame' h' = (Ok (a', c', t'), hf') ->
  names m = names m' ->
  detected m frame h ≡ₚ detected m' frame' h' ->
  c' = c /\ t' = t.
Proof.
  intros Hrun Hrun' Hn Hp.
  apply process_frame_ok in Hrun as (_ & -> & ->).
  apply process_frame_ok in Hrun' as (_ & -> & ->).
  split; symmetry; [by apply total_perm | by apply tally_perm].
Qed.

Lemma tally_order_independent_witness :
  let m' := fixed_model (reverse demo_boxes) in
  let t : gmap string Z :=
    {[ "car" := 2; "truck" := 1; "bus" := 1; "motorcycle" := 0; "bicycle" := 0 ]} in
  let hf := [[10; 20; 30]; [10; 20; 30]; [7]] in
  process_frame demo_model (Some 0%nat) demo_heap = (Ok (2%nat, 4, t), hf) /\
  process_frame m' (Some 0%nat) demo_heap = (Ok (2%nat, 4, t), hf) /\
  names demo_model = names m' /\
  detected demo_model (Some 0%nat) demo_heap ≡ₚ detected m' (Some 0%nat) demo_heap /\
  4 = 4 /\ t = t.
Proof.
  intros m' t hf.
  assert (H1 : process_frame demo_model (Some 0%nat) demo_heap = (Ok (2%nat, 4, t), hf))
    by (vm_compute; reflexivity).
  assert (H2 : process_frame m' (Some 0%nat) demo_heap = (Ok (2%nat, 4, t), hf))
    by (vm_compute; reflexivity).
  assert (H3 : names demo_model = names m') by reflexivity.
  assert (H4 : detected demo_model (Some 0%nat) demo_heap
               ≡ₚ detected m' (Some 0%nat) demo_heap).
  { change (detected m' (Some 0%nat) demo_heap)
      with (reverse (detected demo_model (Some 0%nat) demo_heap)).
    symmetry. apply reverse_Permutation. }
  repeat (split; [assumption |]).
  exact (tally_order_independent _ _ _ _ _ _ _ _ _ _ _ _ _ _ H1 H2 H3 H4).
Defined.

(** C8. Nothing is carried over from one call to the next: when
    [process_frame] is called again, in the store the first call left
    behind, and the detector reports the same boxes, the second call
    returns the same total and the same dictionary; both are the counts of
    those boxes starting from the all-zero dictionary. *)
Theorem second_call_same_tally m frame h a c t h1 a' c' t' h2 :
  process_frame m frame h = (Ok (a, c, t), h1) ->
  process_frame m frame h1 = (Ok (a', c', t'), h2) ->
  detected m frame h1 = detected m frame h ->
  c' = c /\ t' = t /\
  c = total m vehicle_types0 (detected m frame h) /\
  t = tally m (detected m frame h) vehicle_types0.
Proof.
  intros Hrun Hrun' Hsame.
  apply process_frame_ok in Hrun as (_ & -> & ->).
  apply process_frame_ok in Hrun' as (_ & -> & ->).
  by rewrite Hsame.
Qed.

Lemma second_call_same_tally_witness :
  let t : gmap string Z :=
    {[ "car" := 2; "truck" := 1; "bus" := 1; "motorcycle" := 0; "bicycle" := 0 ]} in
  let h1 := [[10; 20; 30]; [10; 20; 30]; [7]] in
  let h2 := [[10; 20; 30]; [10; 20; 30]; [7]; [10; 20; 30]; [7]] in
  process_frame demo_model (Some 0%nat) demo_heap = (Ok (2%nat, 4, t), h1) /\
  process_frame demo_model (Some 0%nat) h1 = (Ok (4%nat, 4, t), h2) /\
  detected demo_model (Some 0%nat) h1 = detected demo_model (Some 0%nat) demo_heap /\
  4 = 4 /\ t = t.
Proof.
  intros t h1 h2.
  assert (H1 : process_frame demo_model (Some 0%nat) demo_heap = (Ok (2%nat, 4, t), h1))
    by (vm_compute; reflexivity).
  assert (H2 : process_frame demo_model (Some 0%nat) h1 = (Ok (4%nat, 4, t), h2))
    by (vm_compute; reflexivity).
  assert (H3 : detected demo_model (Some 0%nat) h1
               = detected demo_model (Some 0%nat) demo_heap) by reflexivity.
  repeat (split; [assumption |]).
  destruct (second_call_same_tally _ _ _ _ _ _ _ _ _ _ _ H1 H2 H3) as (Hc & Ht & _).
  split; [exact Hc | exact Ht].
Defined.

(** ** The frame in the store *)

Section Frame.
Variable model : Model.
Variable l : loc.

Lemma ndarray_copy_keeps frame : keeps l (ndarray_copy frame).
Proof.
  intros h b Hl. unfold ndarray_copy.
  destruct frame as [l' |]; [| done].
  destruct (h !! l'); [| done]. simpl. by apply lookup_app_l_Some.
Qed.

Lemma ndarray_copy_new frame : returns_new (ndarray_copy frame).
Proof.
  intros h a h' Hc. unfold ndarray_copy in Hc.
  destruct frame as [l' |]; [| done].
  destruct (h !! l'); [| done]. injection Hc as <- _.
  by apply lookup_ge_None.
Qed.

Lemma count_boxes_run bs st h r h' :
  for_each bs (count_box model) st h = (r, h') -> h' = h.
Proof.
  intros Hrun. pose proof (count_boxes_heap model bs st h) as Hh.
  by rewrite Hrun in Hh.
Qed.

(** The loop over results leaves the frame as it is, also when it
    raises. *)
Lemma process_results_keep rs a c t h b :
  Forall (fun r => keeps l (plot r)) rs ->
  h !! l = Some b ->
  (for_each rs (process_result model) (a, c, t) h).2 !! l = Some b.
Proof.
  intros Hk. revert a c t h. induction Hk as [| r rs Hr _ IH]; intros a c t h Hl.
  - done.
  - rewrite for_each_cons, process_result_run.
    specialize (Hr h b Hl).
    destruct (plot r h) as [[a1 | e] h1]; simpl in Hr; [| done].
    destruct (for_each (boxes r) _ _ h1) as [[[c1 t1] | e] h2] eqn:Hin;
      apply count_boxes_run in Hin as ->; [by apply IH | done].
Qed.

(** The array the loop over results ends with is not the frame. *)
Lemma process_results_distinct rs a c t h b a' c' t' h' :
  Forall (fun r => keeps l (plot r)) rs ->
  Forall (fun r => returns_new (plot r)) rs ->
  h !! l = Some b ->
  a <> l ->
  for_each rs (process_result model) (a, c, t) h = (Ok (a', c', t'), h') ->
  a' <> l.
Proof.
  intros Hk. revert a c t h.
  induction Hk as [| r rs Hr _ IH]; intros a c t h Hnew Hl Ha Hrun.
  - by injection Hrun as <- _ _ _.
  - apply Forall_cons in Hnew as [Hnew1 Hnew2].
    rewrite for_each_cons, process_result_run in Hrun.
    specialize (Hr h b Hl).
    destruct (plot r h) as [[a1 | e] h1] eqn:Hplot; simpl in Hr; [| done].
    apply Hnew1 in Hplot.
    destruct (for_each (boxes r) _ _ h1) as [[[c1 t1] | e] h2] eqn:Hin;
      apply count_boxes_run in Hin as ->; [| done].
    apply (IH a1 c1 t1 h1); [done | done | congruence | done].
Qed.

End Frame.

(** The sample detector honours the contract for every frame. *)
Lemma fixed_model_contract bs l : detector_contract (fixed_model bs) l.
Proof.
  split.
  - intros h b Hl. done.
  - intros h rs h' [= <- <-]. repeat constructor.
    intros h0 b Hl. simpl. by apply lookup_app_l_Some.
  - intros h rs h' [= <- <-]. repeat constructor.
    intros h0 a h1 [= <- <-]. by apply lookup_ge_None.
Qed.

(** C9. Provided the detection library itself does not write to the frame
    and draws each plot on an array of its own, a call of [process_frame]
    leaves the bytes of the input frame as they were, whether it returns or
    raises, and the annotated frame it returns is another array than the
    input. *)
Theorem frame_not_mutated m l h b :
  h !! l = Some b ->
  detector_contract m l ->
  (process_frame m (Some l) h).2 !! l = Some b /\
  (forall a c t hf,
      process_frame m (Some l) h = (Ok (a, c, t), hf) -> a <> l).
Proof.
  intros Hl [Hpred Hplot Hnew].
  specialize (Hpred h b Hl). unfold process_frame, bind.
  destruct (predict m (Some l) h) as [[rs | e] h1] eqn:Hp; simpl in Hpred; [| done].
  specialize (Hplot _ _ _ Hp). specialize (Hnew _ _ _ Hp).
  pose proof (ndarray_copy_keeps l (Some l) h1 b Hpred) as Hcopy.
  destruct (ndarray_copy (Some l) h1) as [[a0 | e] h2] eqn:Hc; simpl in Hcopy; [| done].
  apply ndarray_copy_new in Hc.
  pose proof (process_results_keep m l rs a0 0 vehicle_types0 h2 b Hplot Hcopy) as Hkeep.
  destruct (for_each rs _ _ h2) as [[[[a1 c1] t1] | e] h3] eqn:Hloop;
    simpl in Hkeep; [| done].
  split; [done |].
  intros a c t hf [= <- <- <- <-].
  eapply process_results_distinct; [done | done | exact Hcopy | | exact Hloop].
  congruence.
Qed.

Lemma frame_not_mutated_witness :
  demo_heap !! 0%nat = Some [10; 20; 30] /\
  (process_frame demo_model (Some 0%nat) demo_heap).2 !! 0%nat = Some [10; 20; 30] /\
  (process_frame demo_model (Some 0%nat) demo_heap).1 =
    Ok (2%nat, 4, tally demo_model demo_boxes vehicle_types0) /\
  2%nat <> 0%nat.
Proof.
  assert (H1 : demo_heap !! 0%nat = Some [10; 20; 30]) by reflexivity.
  assert (H2 : process_frame demo_model (Some 0%nat) demo_heap =
                 (Ok (2%nat, 4, tally demo_model demo_boxes vehicle_types0),
                  [[10; 20; 30]; [10; 20; 30]; [7]]))
    by (vm_compute; reflexivity).
  destruct (frame_not_mutated demo_model 0%nat demo_heap [10; 20; 30] H1
              (fixed_model_contract demo_boxes 0%nat)) as [Hkeep Hne].
  split; [exact H1 |]. split; [exact Hkeep |].
  split; [by rewrite H2 | exact (Hne _ _ _ _ H2)].
Defined.

(** ** The upload sections *)

(** C5, as the code has it.  When the first frame of the video cannot be
    read ([ret] is false) the video section raises nothing: it skips the
    analysis, so the detector is not called, no result is bound, no zero
    count is made up, and the store is as before. *)
Theorem video_unreadable_skips m frame h :
  video_section m false frame h = (Ok None, h).
Proof. reflexivity. Qed.

(** C5 as written fails: on an unreadable video the section returns
    normally, with no result, instead of raising an error. *)
Lemma video_unreadable_no_error :
  video_section demo_model false None demo_heap = (Ok None, demo_heap) /\
  ~ exists e, (video_section demo_model false None demo_heap).1 = Raise e.
Proof. split; [reflexivity |]. intros [e He]. discriminate He. Qed.

(** C6, as the code has it.  A frame on which the detector reports no box
    is analysed without error by both sections: every entry of the
    dictionary is zero, the total is 0, the density is LOW, the green time
    is 15 and the status is the LOW label, emoji included. *)
Theorem zero_detections_low m l h rs h1 b :
  predict m (Some l) h = (Ok rs, h1) ->
  h1 !! l = Some b ->
  plots_return rs ->
  detections rs = [] ->
  exists a hf,
    let result :=
      {| annotated_frame := a; vehicle_count := 0;
         vehicle_types := {[ "car" := 0; "truck" := 0; "bus" := 0;
                             "motorcycle" := 0; "bicycle" := 0 ]};
         density := "LOW"; signal_time := 15;
         color_status := "🟢 Smooth Traffic" |} in
    image_section m (Some l) h = (Ok result, hf) /\
    video_section m true (Some l) h = (Ok (Some result), hf).
Proof.
  intros Hp Hl Hplots Hnone.
  destruct (process_frame_returns m l h rs h1 b Hp Hl Hplots) as (a & hf & Hrun).
  { rewrite Hnone. constructor. }
  rewrite Hnone, tally_nil in Hrun. change (total m vehicle_types0 []) with 0 in Hrun.
  exists a, hf. unfold image_section, video_section, bind. by rewrite Hrun.
Qed.

Lemma zero_detections_low_witness :
  predict (fixed_model []) (Some 0%nat) demo_heap
    = (Ok [ {| boxes := []; plot := plot_new [7] |} ], demo_heap) /\
  demo_heap !! 0%nat = Some [10; 20; 30] /\
  exists a hf,
    let result :=
      {| annotated_frame := a; vehicle_count := 0;
         vehicle_types := {[ "car" := 0; "truck" := 0; "bus" := 0;
                             "motorcycle" := 0; "bicycle" := 0 ]};
         density := "LOW"; signal_time := 15;
         color_status := "🟢 Smooth Traffic" |} in
    image_section (fixed_model []) (Some 0%nat) demo_heap = (Ok result, hf) /\
    video_section (fixed_model []) true (Some 0%nat) demo_heap
      = (Ok (Some result), hf).
Proof.
  assert (H1 : predict (fixed_model []) (Some 0%nat) demo_heap
               = (Ok [ {| boxes := []; plot := plot_new [7] |} ], demo_heap))
    by reflexivity.
  assert (H2 : demo_heap !! 0%nat = Some [10; 20; 30]) by reflexivity.
  assert (H3 : plots_return [ {| boxes := []; plot := plot_new [7] |} ]).
  { repeat constructor. intros h. by eexists _, _. }
  assert (H4 : detections [ {| boxes := []; plot := plot_new [7] |} ] = [])
    by reflexivity.
  split; [exact H1 |]. split; [exact H2 |].
  exact (zero_detections_low _ _ _ _ _ _ H1 H2 H3 H4).
Defined.

(** C6 as written fails on the status only: with no box reported the
    section returns total 0, LOW and 15 seconds, but the status is not the
    bare text. *)
Lemma zero_detections_status_has_emoji :
  exists r,
    (image_section (fixed_model []) (Some 0%nat) demo_heap).1 = Ok r /\
    vehicle_count r = 0 /\ vehicle_types r = vehicle_types0 /\
    density r = "LOW" /\ signal_time r = 15 /\
    color_status r <> "Smooth Traffic".
Proof.
  eexists. split; [vm_compute; reflexivity |].
  simpl. repeat split. discriminate.
Qed.

Example run_main_page :
  let w := {| clicked := false; radio_option := "Upload Video";
              uploaded_video := Some (true, Some 0%nat); uploaded_image := None |} in
  fst (main_page demo_model w demo_heap)
  = Ok (Some {| annotated_frame := 2%nat; vehicle_count := 4;
                vehicle_types := {[ "car" := 2; "truck" := 1; "bus" := 1;
                                    "motorcycle" := 0; "bicycle" := 0 ]};
                density := "LOW"; signal_time := 15;
                color_status := "🟢 Smooth Traffic" |},
        Some {[ "car" := 2; "truck" := 1; "bus" := 1 ]}).
Proof. vm_compute. reflexivity. Qed.

(** * Further properties of the counting *)

Section Bounds.
Variable model : Model.

Lemma class_count_nonneg k bs : 0 <= class_count model k bs.
Proof. unfold class_count. lia. Qed.

Lemma total_le_length t bs : 0 <= total model t bs <= Z.of_nat (List.length bs).
Proof. unfold total. pose proof (length_filter (counted model t) bs). lia. Qed.

Lemma filter_all {A} (P : A -> Prop) `{!forall x, Decision (P x)} (xs : list A) :
  List.length (filter P xs) = List.length xs <-> Forall P xs.
Proof.
  induction xs as [| x xs IH]; [by split |].
  destruct (decide (P x)) as [Hx | Hx].
  - rewrite filter_cons_True by done. simpl. rewrite Forall_cons.
    split; [intros [= Hlen]; split; [done | by apply IH] |].
    intros [_ Hall]. f_equal. by apply IH.
  - rewrite filter_cons_False by done. simpl. rewrite Forall_cons.
    pose proof (length_filter P xs). split; [lia | by intros [? _]].
Qed.

Lemma filter_length_submseteq {A} (P : A -> Prop) `{!forall x, Decision (P x)}
    (xs ys : list A) :
  xs ⊆+ ys -> (List.length (filter P xs) <= List.length (filter P ys))%nat.
Proof.
  intros Hsub. apply submseteq_Permutation in Hsub as [k Hk].
  rewrite Hk, filter_app, length_app. lia.
Qed.

(** No box without a name: the loop preconditions, as a function. *)
Lemma first_unnamed_None bs :
  first_unnamed model bs = None <-> Forall (named model) bs.
Proof.
  induction bs as [| b bs IH]; simpl; [by split |].
  rewrite Forall_cons. unfold named at 1.
  destruct (names model !! box_cls b) as [k |].
  - rewrite IH. split; [by split; [eexists |] | by intros [_ ?]].
  - split; [done | by intros [[? [=]] _]].
Qed.

Lemma first_unnamed_app bs1 bs2 :
  first_unnamed model (bs1 ++ bs2) =
    match first_unnamed model bs1 with
    | Some k => Some k
    | None => first_unnamed model bs2
    end.
Proof.
  induction bs1 as [| b bs1 IH]; simpl; [done |].
  by destruct (names model !! box_cls b).
Qed.

(** The box loop stops at the first box without a name. *)
Lemma count_boxes_raise bs st h k :
  first_unnamed model bs = Some k ->
  for_each bs (count_box model) st h = (Raise (KeyError k), h).
Proof.
  revert st. induction bs as [| b bs IH]; intros [c t] Hk; [done |].
  simpl in Hk. rewrite for_each_cons.
  destruct (names model !! box_cls b) as [label |] eqn:Hl.
  - rewrite (count_box_named _ _ _ _ _ _ Hl). destruct (t !! label); by apply IH.
  - injection Hk as <-. by rewrite count_box_unnamed.
Qed.

(** So does the loop over results, when the plots return. *)
Lemma process_results_raise rs a c t h k :
  plots_return rs ->
  first_unnamed model (detections rs) = Some k ->
  exists h', for_each rs (process_result model) (a, c, t) h = (Raise (KeyError k), h').
Proof.
  intros Hp. revert a c t h. induction Hp as [| r rs Hr _ IH]; intros a c t h Hk.
  - done.
  - unfold detections in Hk. simpl in Hk. fold (detections rs) in Hk.
    rewrite first_unnamed_app in Hk.
    destruct (Hr h) as (a1 & h1 & Hplot).
    rewrite for_each_cons, process_result_run, Hplot.
    destruct (first_unnamed model (boxes r)) as [k' |] eqn:Hfirst.
    + injection Hk as ->. rewrite (count_boxes_raise _ _ _ _ Hfirst). by exists h1.
    + apply first_unnamed_None in Hfirst.
      rewrite (count_boxes_tally _ _ _ _ _ Hfirst). by apply IH.
Qed.

End Bounds.

(** What an upload section returns, in terms of [process_frame]. *)
Lemma image_section_ok m image h r hf :
  image_section m image h = (Ok r, hf) <->
  exists a c t,
    process_frame m image h = (Ok (a, c, t), hf) /\
    r = {| annotated_frame := a; vehicle_count := c; vehicle_types := t;
           density := tier c; signal_time := green c; color_status := status c |}.
Proof.
  unfold image_section, bind, tier, green, status.
  destruct (process_frame m image h) as [[[[a c] t] | e] h1].
  - destruct (traffic_logic c) as [[d g] s] eqn:Htl. unfold pure. split.
    + intros [= <- <-]. exists a, c, t. by rewrite Htl.
    + intros (a' & c' & t' & [= <- <- <- <-] & ->). by rewrite Htl.
  - split; [done | by intros (a & c & t & [=] & _)].
Qed.

Lemma image_section_raise m image h e hf :
  image_section m image h = (Raise e, hf) <->
  process_frame m image h = (Raise e, hf).
Proof.
  unfold image_section, bind.
  destruct (process_frame m image h) as [[[[a c] t] | e'] h1].
  - destruct (traffic_logic c) as [[d g] s]. by split.
  - split; by intros [= -> ->].
Qed.

(** An entry of the dictionary never exceeds the total. *)
Lemma tally_entry_bounds m bs k n :
  tally m bs vehicle_types0 !! k = Some n ->
  n = class_count m k bs /\ 0 <= n <= total m vehicle_types0 bs.
Proof.
  intros Hk. rewrite lookup_tally in Hk.
  destruct (vehicle_types0 !! k) as [z |] eqn:Hz; [| done].
  assert (Hin : k ∈ whitelist) by (rewrite <- dom_vehicle_types0; by apply elem_of_dom).
  rewrite total_whitelist.
  pose proof (class_count_nonneg m "car" bs).
  pose proof (class_count_nonneg m "truck" bs).
  pose proof (class_count_nonneg m "bus" bs).
  pose proof (class_count_nonneg m "motorcycle" bs).
  pose proof (class_count_nonneg m "bicycle" bs).
  unfold whitelist in Hin. rewrite !elem_of_union, !elem_of_singleton in Hin.
  destruct Hin as [[[[-> | ->] | ->] | ->] | ->];
    vm_compute in Hz; injection Hz as <-; injection Hk as <-; lia.
Qed.

(** X1. Whenever [process_frame] returns, the total lies between 0 and the
    number of boxes the detector reported, and every entry of the dictionary
    lies between 0 and the total. *)
Theorem counts_bounded m frame h a c t hf :
  process_frame m frame h = (Ok (a, c, t), hf) ->
  0 <= c <= Z.of_nat (List.length (detected m frame h)) /\
  (forall k n, t !! k = Some n -> 0 <= n <= c).
Proof.
  intros Hrun. apply process_frame_ok in Hrun as (_ & -> & ->).
  split; [apply total_le_length |]. intros k n Hk.
  by apply tally_entry_bounds in Hk as [_ ?].
Qed.

Lemma counts_bounded_witness :
  process_frame demo_model (Some 0%nat) demo_heap =
    (Ok (2%nat, 4, tally demo_model demo_boxes vehicle_types0),
     [[10; 20; 30]; [10; 20; 30]; [7]]) /\
  0 <= 4 <= Z.of_nat (List.length (detected demo_model (Some 0%nat) demo_heap)).
Proof.
  assert (H1 : process_frame demo_model (Some 0%nat) demo_heap =
    (Ok (2%nat, 4, tally demo_model demo_boxes vehicle_types0),
     [[10; 20; 30]; [10; 20; 30]; [7]])) by (vm_compute; reflexivity).
  split; [exact H1 |].
  exact (proj1 (counts_bounded _ _ _ _ _ _ _ H1)).
Defined.

(** X2. Whenever [process_frame] returns, the total equals the number of
    reported boxes exactly when every reported box has one of the five
    class names; a single box of another class makes it smaller. *)
Theorem all_counted_iff m frame h a c t hf :
  process_frame m frame h = (Ok (a, c, t), hf) ->
  c = Z.of_nat (List.length (detected m frame h)) <->
  Forall (is_vehicle m) (detected m frame h).
Proof.
  intros Hrun. apply process_frame_ok in Hrun as (_ & -> & _).
  rewrite total_is_vehicle, <- (filter_all (is_vehicle m)).
  split; [apply Nat2Z.inj | by intros ->].
Qed.

Lemma all_counted_iff_witness :
  process_frame demo_model (Some 0%nat) demo_heap =
    (Ok (2%nat, 4, tally demo_model demo_boxes vehicle_types0),
     [[10; 20; 30]; [10; 20; 30]; [7]]) /\
  (4 = Z.of_nat (List.length (detected demo_model (Some 0%nat) demo_heap)) <->
   Forall (is_vehicle demo_model) (detected demo_model (Some 0%nat) demo_heap)).
Proof.
  assert (H1 : process_frame demo_model (Some 0%nat) demo_heap =
    (Ok (2%nat, 4, tally demo_model demo_boxes vehicle_types0),
     [[10; 20; 30]; [10; 20; 30]; [7]])) by (vm_compute; reflexivity).
  split; [exact H1 |].
  exact (all_counted_iff _ _ _ _ _ _ _ H1).
Defined.

(** X3. A reported box whose class id is missing from [model.names] stops
    the call: when the prediction and the plots succeed, [process_frame]
    raises [KeyError] for the first such box in visiting order, and the
    image section raises the same error instead of showing counts. *)
Theorem unnamed_class_raises m l h rs h1 b k :
  predict m (Some l) h = (Ok rs, h1) ->
  h1 !! l = Some b ->
  plots_return rs ->
  first_unnamed m (detections rs) = Some k ->
  exists hf,
    process_frame m (Some l) h = (Raise (KeyError k), hf) /\
    image_section m (Some l) h = (Raise (KeyError k), hf).
Proof.
  intros Hp Hl Hplots Hk.
  destruct (process_results_raise m rs (List.length h1) 0 vehicle_types0
              (h1 ++ [b]) k Hplots Hk) as [hf Hloop].
  assert (Hrun : process_frame m (Some l) h = (Raise (KeyError k), hf)).
  { unfold process_frame, bind, ndarray_copy. by rewrite Hp, Hl, Hloop. }
  exists hf. split; [done | by apply image_section_raise].
Qed.

Lemma unnamed_class_raises_witness :
  let m := fixed_model (map mk_box [2; 4; 2]) in
  let rs := [ {| boxes := map mk_box [2; 4; 2]; plot := plot_new [7] |} ] in
  predict m (Some 0%nat) demo_heap = (Ok rs, demo_heap) /\
  demo_heap !! 0%nat = Some [10; 20; 30] /\
  first_unnamed m (detections rs) = Some 4 /\
  exists hf,
    process_frame m (Some 0%nat) demo_heap = (Raise (KeyError 4), hf) /\
    image_section m (Some 0%nat) demo_heap = (Raise (KeyError 4), hf).
Proof.
  intros m rs.
  assert (H1 : predict m (Some 0%nat) demo_heap = (Ok rs, demo_heap)) by reflexivity.
  assert (H2 : demo_heap !! 0%nat = Some [10; 20; 30]) by reflexivity.
  assert (H3 : plots_return rs).
  { repeat constructor. intros h. by eexists _, _. }
  assert (H4 : first_unnamed m (detections rs) = Some 4) by reflexivity.
  repeat (split; [assumption |]).
  exact (unnamed_class_raises _ _ _ _ _ _ _ H1 H2 H3 H4).
Defined.


Lemma video_section_true m frame h :
  video_section m true frame h =
    match image_section m frame h with
    | (Ok r, hf) => (Ok (Some r), hf)
    | (Raise e, hf) => (Raise e, hf)
    end.
Proof.
  unfold video_section, image_section, bind.
  destruct (process_frame m frame h) as [[[[a c] t] | e] h1]; [| done].
  by destruct (traffic_logic c) as [[d g] s].
Qed.

(** X5. The two upload paths run the same analysis: on a readable first
    frame the video section binds exactly what the image section binds for
    that frame, and raises exactly when it raises. *)
Theorem video_section_as_image m frame h :
  video_section m true frame h =
    match image_section m frame h with
    | (Ok r, hf) => (Ok (Some r), hf)
    | (Raise e, hf) => (Raise e, hf)
    end.
Proof.
  unfold video_section, image_section, bind.
  destruct (process_frame m frame h) as [[[[a c] t] | e] h1]; [| done].
  by destruct (traffic_logic c) as [[d g] s].
Qed.

(** * Further properties of the decision *)

Lemma green_mono m n : m <= n -> green m <= green n.
Proof.
  intros Hmn. unfold green.
  destruct (traffic_logic_cases m) as [[Hm ->] | [[Hm ->] | [Hm ->]]];
    destruct (traffic_logic_cases n) as [[Hn ->] | [[Hn ->] | [Hn ->]]];
    simpl; lia.
Qed.

Lemma total_submseteq m m' t bs bs' :
  names m = names m' -> bs ⊆+ bs' -> total m t bs <= total m' t bs'.
Proof.
  intros Hn Hsub. rewrite <- (total_perm m m' t bs' bs') by done.
  unfold total. apply inj_le. by apply filter_length_submseteq.
Qed.

(** X6. From detector to decision: in every analysis the image section
    returns, the total is the number of reported boxes with one of the five
    class names, density, green time and status are the row of
    [traffic_logic] for that number, and the density is LOW, MEDIUM or HIGH
    exactly when that number is at most 10, from 11 to 25, or at least
    26. *)
Theorem analysis_follows_detections m frame h r hf :
  image_section m frame h = (Ok r, hf) ->
  let n := Z.of_nat (List.length (filter (is_vehicle m) (detected m frame h))) in
  vehicle_count r = n /\
  (density r, signal_time r, color_status r) = traffic_logic n /\
  (density r = "LOW" <-> n <= 10) /\
  (density r = "MEDIUM" <-> 11 <= n <= 25) /\
  (density r = "HIGH" <-> 26 <= n).
Proof.
  intros Hrun n.
  apply image_section_ok in Hrun as (a & c & t & Hrun & ->).
  apply process_frame_ok in Hrun as (_ & -> & _).
  rewrite total_is_vehicle. fold n. simpl. unfold tier, green, status.
  destruct (traffic_logic_cases n) as [[Hn ->] | [[Hn ->] | [Hn ->]]]; simpl;
    repeat split; intros; try lia; try discriminate.
Qed.

Lemma analysis_follows_detections_witness :
  let r := {| annotated_frame := 2%nat; vehicle_count := 4;
              vehicle_types := tally demo_model demo_boxes vehicle_types0;
              density := "LOW"; signal_time := 15;
              color_status := "🟢 Smooth Traffic" |} in
  image_section demo_model (Some 0%nat) demo_heap
    = (Ok r, [[10; 20; 30]; [10; 20; 30]; [7]]) /\
  vehicle_count r
    = Z.of_nat (List.length (filter (is_vehicle demo_model)
                               (detected demo_model (Some 0%nat) demo_heap))).
Proof.
  intros r.
  assert (H1 : image_section demo_model (Some 0%nat) demo_heap
               = (Ok r, [[10; 20; 30]; [10; 20; 30]; [7]]))
    by (vm_compute; reflexivity).
  split; [exact H1 |].
  exact (proj1 (analysis_follows_detections _ _ _ _ _ H1)).
Defined.

(** X7. More vehicles never shorten the green time: if one analysed frame
    has all the boxes of another and possibly more, under the same class
    table, its total and its green time are at least as large. *)
Theorem more_boxes_longer_green m m' frame frame' h h' r r' hf hf' :
  image_section m frame h = (Ok r, hf) ->
  image_section m' frame' h' = (Ok r', hf') ->
  names m = names m' ->
  detected m frame h ⊆+ detected m' frame' h' ->
  vehicle_count r <= vehicle_count r' /\ signal_time r <= signal_time r'.
Proof.
  intros Hrun Hrun' Hn Hsub.
  apply image_section_ok in Hrun as (a & c & t & Hrun & ->).
  apply image_section_ok in Hrun' as (a' & c' & t' & Hrun' & ->).
  apply process_frame_ok in Hrun as (_ & -> & _).
  apply process_frame_ok in Hrun' as (_ & -> & _).
  simpl. pose proof (total_submseteq m m' vehicle_types0 _ _ Hn Hsub) as Hle.
  split; [done | by apply green_mono].
Qed.

Lemma more_boxes_longer_green_witness :
  let m' := fixed_model (demo_boxes ++ map mk_box (replicate 9 2)) in
  let r := {| annotated_frame := 2%nat; vehicle_count := 4;
              vehicle_types := tally demo_model demo_boxes vehicle_types0;
              density := "LOW"; signal_time := 15;
              color_status := "🟢 Smooth Traffic" |} in
  let r' := {| annotated_frame := 2%nat; vehicle_count := 13;
               vehicle_types := tally m' (demo_boxes ++ map mk_box (replicate 9 2))
                                  vehicle_types0;
               density := "MEDIUM"; signal_time := 30;
               color_status := "🟡 Moderate Traffic" |} in
  let hf := [[10; 20; 30]; [10; 20; 30]; [7]] in
  image_section demo_model (Some 0%nat) demo_heap = (Ok r, hf) /\
  image_section m' (Some 0%nat) demo_heap = (Ok r', hf) /\
  detected demo_model (Some 0%nat) demo_heap ⊆+ detected m' (Some 0%nat) demo_heap /\
  4 <= 13 /\ 15 <= 30.
Proof.
  intros m' r r' hf.
  assert (H1 : image_section demo_model (Some 0%nat) demo_heap = (Ok r, hf))
    by (vm_compute; reflexivity).
  assert (H2 : image_section m' (Some 0%nat) demo_heap = (Ok r', hf))
    by (vm_compute; reflexivity).
  assert (H3 : names demo_model = names m') by reflexivity.
  assert (H4 : detected demo_model (Some 0%nat) demo_heap
               ⊆+ detected m' (Some 0%nat) demo_heap).
  { change (detected m' (Some 0%nat) demo_heap)
      with ((demo_boxes ++ []) ++ (map mk_box (replicate 9 2) ++ [])).
    change (detected demo_model (Some 0%nat) demo_heap) with (demo_boxes ++ []).
    by apply submseteq_inserts_r. }
  split; [exact H1 |]. split; [exact H2 |]. split; [exact H4 |].
  exact (more_boxes_longer_green _ _ _ _ _ _ _ _ _ _ H1 H2 H3 H4).
Defined.

(** X8. The green time changes only at the two thresholds: one more
    vehicle changes it exactly when the count goes from 10 to 11 or from 25
    to 26, and then it grows by 15 seconds. *)
Theorem green_changes_at_thresholds (n : Z) :
  (green (n + 1) <> green n <-> n = 10 \/ n = 25) /\
  (green (n + 1) = green n \/ green (n + 1) = green n + 15).
Proof.
  unfold green.
  destruct (traffic_logic_cases n) as [[Hn ->] | [[Hn ->] | [Hn ->]]];
    destruct (traffic_logic_cases (n + 1)) as [[Hs ->] | [[Hs ->] | [Hs ->]]];
    simpl; try lia.
Qed.

(** * The chart and the page *)

Lemma whitelist_members :
  "car" ∈ whitelist /\ "truck" ∈ whitelist /\ "bus" ∈ whitelist /\
  "motorcycle" ∈ whitelist /\ "bicycle" ∈ whitelist.
Proof.
  unfold whitelist. rewrite !elem_of_union, !elem_of_singleton. tauto.
Qed.

(** What the main page returns: either nothing was analysed and the store
    is untouched, or the bound variables are those of the image section on
    some frame. *)
Lemma main_page_ok m w h locals chart hf :
  main_page m w h = (Ok (locals, chart), hf) ->
  chart = vehicle_chart locals /\
  ((locals = None /\ hf = h) \/
   (exists frame r, locals = Some r /\ image_section m frame h = (Ok r, hf))).
Proof.
  unfold main_page, bind. intros Hrun.
  destruct (decide (radio_option w = "Upload Video")) as [_ | _].
  - destruct (uploaded_video w) as [[[] frame] |].
    + rewrite video_section_true in Hrun.
      destruct (image_section m frame h) as [[r | e] h1] eqn:Hi; [| done].
      injection Hrun as <- <- <-. split; [done |]. right. by exists frame, r.
    + injection Hrun as <- <- <-. split; [done |]. by left.
    + injection Hrun as <- <- <-. split; [done |]. by left.
  - destruct (decide (radio_option w = "Upload Image")) as [_ | _].
    + destruct (uploaded_image w) as [image |].
      * destruct (image_section m image h) as [[r | e] h1] eqn:Hi; [| done].
        injection Hrun as <- <- <-. split; [done |]. right. by exists image, r.
      * injection Hrun as <- <- <-. split; [done |]. by left.
    + injection Hrun as <- <- <-. split; [done |]. by left.
Qed.

(** The bar of a class is its entry, also when the entry is 0 and the bar
    is left out. *)
Lemma bar_filtered (t : gmap string Z) k n :
  t !! k = Some n -> 0 <= n ->
  bar (filter (fun kv : string * Z => 0 < kv.2) t) k = n.
Proof.
  intros Hk Hn. unfold bar.
  destruct (decide (0 < n)) as [Hpos | Hzero].
  - by rewrite (map_lookup_filter_Some_2 _ t k n Hk Hpos).
  - rewrite (proj2 (map_lookup_filter_None _ t k)); [simpl; lia |].
    right. intros n' Hk'. simpl. rewrite Hk in Hk'. injection Hk' as <-. done.
Qed.

(** The entries of an analysis the image section returned. *)
Lemma image_section_entries m frame h r hf :
  image_section m frame h = (Ok r, hf) ->
  let bs := detected m frame h in
  vehicle_count r = total m vehicle_types0 bs /\
  vehicle_types r = tally m bs vehicle_types0.
Proof.
  intros Hrun bs. apply image_section_ok in Hrun as (a & c & t & Hrun & ->).
  by apply process_frame_ok in Hrun as (_ & -> & ->).
Qed.

(** X9. The chart is drawn exactly when something was analysed and at least
    one vehicle was counted: no chart without an upload, on an unreadable
    video, or for a frame without vehicles. *)
Theorem chart_drawn_iff m w h locals chart hf :
  main_page m w h = (Ok (locals, chart), hf) ->
  is_Some chart <-> exists r, locals = Some r /\ 0 < vehicle_count r.
Proof.
  intros Hrun. apply main_page_ok in Hrun as (-> & [[-> _] | (frame & r & -> & Hi)]).
  - simpl. split; [by intros [? [=]] | by intros (r & [=] & _)].
  - apply image_section_entries in Hi as [Hc Ht]. simpl. rewrite Ht.
    set (bs := detected m frame h) in *.
    split.
    + intros Hsome. exists r. split; [done |].
      destruct (decide (filter _ (tally m bs vehicle_types0) = ∅)) as [| Hne];
        [by destruct Hsome |].
      apply map_choose in Hne as (k & n & Hk).
      apply map_lookup_filter_Some in Hk as [Hk Hpos]. simpl in Hpos.
      apply tally_entry_bounds in Hk as [_ Hle]. lia.
    + intros (r' & [= <-] & Hpos). rewrite Hc, total_whitelist in Hpos.
      destruct (decide (filter _ (tally m bs vehicle_types0) = ∅)) as [Hempty |];
        [| by eexists].
      exfalso.
      assert (Hzero : forall k, k ∈ whitelist -> class_count m k bs = 0).
      { intros k Hin. rewrite <- dom_vehicle_types0 in Hin.
        apply elem_of_dom in Hin as [z Hz].
        assert (Hk : tally m bs vehicle_types0 !! k = Some (z + class_count m k bs))
          by by rewrite lookup_tally, Hz.
        pose proof (tally_entry_bounds _ _ _ _ Hk) as [Heq Hle].
        pose proof (bar_filtered _ _ _ Hk (proj1 Hle)) as Hbar.
        unfold bar in Hbar. rewrite Hempty, lookup_empty in Hbar. simpl in Hbar.
        lia. }
      destruct whitelist_members as (? & ? & ? & ? & ?).
      rewrite (Hzero "car"), (Hzero "truck"), (Hzero "bus"), (Hzero "motorcycle"),
        (Hzero "bicycle") in Hpos by done.
      lia.
Qed.

Lemma chart_drawn_iff_witness :
  let w := {| clicked := false; radio_option := "Upload Video";
              uploaded_video := Some (true, Some 0%nat); uploaded_image := None |} in
  let r := {| annotated_frame := 2%nat; vehicle_count := 4;
              vehicle_types := {[ "car" := 2; "truck" := 1; "bus" := 1;
                                  "motorcycle" := 0; "bicycle" := 0 ]};
              density := "LOW"; signal_time := 15;
              color_status := "🟢 Smooth Traffic" |} in
  let chart : gmap string Z := {[ "car" := 2; "truck" := 1; "bus" := 1 ]} in
  main_page demo_model w demo_heap
    = (Ok (Some r, Some chart), [[10; 20; 30]; [10; 20; 30]; [7]]) /\
  (is_Some (Some chart) <-> exists r', Some r = Some r' /\ 0 < vehicle_count r').
Proof.
  intros w r chart.
  assert (H1 : main_page demo_model w demo_heap
               = (Ok (Some r, Some chart), [[10; 20; 30]; [10; 20; 30]; [7]]))
    by (vm_compute; reflexivity).
  split; [exact H1 |].
  exact (chart_drawn_iff _ _ _ _ _ _ H1).
Defined.

(** X10. A drawn chart accounts for every counted vehicle: its bars are
    among the five classes, each bar is the entry of its class, at least 1
    and at most the total, a class with no vehicle has no bar, and the bar
    heights add up to the total shown beside it. *)
Theorem chart_bars_sum m w h r chart hf :
  main_page m w h = (Ok (Some r, Some chart), hf) ->
  dom chart ⊆ whitelist /\
  (forall k n, chart !! k = Some n <-> vehicle_types r !! k = Some n /\ 0 < n) /\
  (forall k n, chart !! k = Some n -> 1 <= n <= vehicle_count r) /\
  bar chart "car" + bar chart "truck" + bar chart "bus"
    + bar chart "motorcycle" + bar chart "bicycle" = vehicle_count r.
Proof.
  intros Hrun.
  apply main_page_ok in Hrun as (Hchart & [[[=] _] | (frame & r' & [= <-] & Hi)]).
  apply image_section_entries in Hi as [Hc Ht].
  set (bs := detected m frame h) in *. unfold vehicle_chart in Hchart.
  destruct (decide (filter _ (vehicle_types r) = ∅)) as [| _];
    [discriminate Hchart |].
  injection Hchart as ->.
  split; [| split; [| split]].
  - transitivity (dom (vehicle_types r)); [apply dom_filter_subseteq |].
    by rewrite Ht, dom_tally, dom_vehicle_types0.
  - intros k n. by rewrite map_lookup_filter_Some.
  - intros k n Hk. apply map_lookup_filter_Some in Hk as [Hk Hpos]. simpl in Hpos.
    rewrite Ht in Hk. apply tally_entry_bounds in Hk as [_ Hle]. lia.
  - assert (Hbar : forall k, k ∈ whitelist ->
                bar (filter (fun kv : string * Z => 0 < kv.2) (vehicle_types r)) k
                = class_count m k bs).
    { intros k Hin. rewrite <- dom_vehicle_types0 in Hin.
      apply elem_of_dom in Hin as [z Hz].
      assert (Hk : tally m bs vehicle_types0 !! k = Some (z + class_count m k bs))
        by by rewrite lookup_tally, Hz.
      pose proof (tally_entry_bounds _ _ _ _ Hk) as [Heq Hle].
      rewrite <- Ht in Hk. rewrite (bar_filtered _ _ _ Hk (proj1 Hle)). done. }
    destruct whitelist_members as (? & ? & ? & ? & ?).
    rewrite (Hbar "car"), (Hbar "truck"), (Hbar "bus"), (Hbar "motorcycle"),
      (Hbar "bicycle") by done.
    by rewrite Hc, total_whitelist.
Qed.

Lemma chart_bars_sum_witness :
  let w := {| clicked := false; radio_option := "Upload Image";
              uploaded_video := None; uploaded_image := Some (Some 0%nat) |} in
  let r := {| annotated_frame := 2%nat; vehicle_count := 4;
              vehicle_types := {[ "car" := 2; "truck" := 1; "bus" := 1;
                                  "motorcycle" := 0; "bicycle" := 0 ]};
              density := "LOW"; signal_time := 15;
              color_status := "🟢 Smooth Traffic" |} in
  let chart : gmap string Z := {[ "car" := 2; "truck" := 1; "bus" := 1 ]} in
  main_page demo_model w demo_heap
    = (Ok (Some r, Some chart), [[10; 20; 30]; [10; 20; 30]; [7]]) /\
  bar chart "car" + bar chart "truck" + bar chart "bus"
    + bar chart "motorcycle" + bar chart "bicycle" = vehicle_count r.
Proof.
  intros w r chart.
  assert (H1 : main_page demo_model w demo_heap
               = (Ok (Some r, Some chart), [[10; 20; 30]; [10; 20; 30]; [7]]))
    by (vm_compute; reflexivity).
  split; [exact H1 |].
  exact (proj2 (proj2 (proj2 (chart_bars_sum _ _ _ _ _ _ H1)))).
Defined.

(** X11. With nothing to analyse the main page does nothing: when the
    selected input type has no upload, or the uploaded video has no
    readable first frame, the detector is not called, the store is
    untouched, nothing is bound and no chart is drawn, whatever was
    uploaded for the other input type. *)
Theorem nothing_to_analyse m w h :
  (radio_option w = "Upload Video" /\
     (uploaded_video w = None \/ exists frame, uploaded_video w = Some (false, frame)))
  \/ (radio_option w = "Upload Image" /\ uploaded_image w = None)
  \/ (radio_option w <> "Upload Video" /\ radio_option w <> "Upload Image") ->
  main_page m w h = (Ok (None, None), h).
Proof.
  unfold main_page, bind.
  intros [[Hv Hup] | [[Hi Hup] | [Hv Hi]]].
  - rewrite decide_True by done. by destruct Hup as [-> | [frame ->]].
  - rewrite decide_False by (rewrite Hi; discriminate).
    rewrite decide_True by done. by rewrite Hup.
  - by rewrite !decide_False.
Qed.

Lemma nothing_to_analyse_witness :
  let w := {| clicked := false; radio_option := "Upload Video";
              uploaded_video := Some (false, None);
              uploaded_image := Some (Some 0%nat) |} in
  main_page demo_model w demo_heap = (Ok (None, None), demo_heap).
Proof.
  intros w. apply (nothing_to_analyse demo_model w demo_heap).
  left. split; [reflexivity |]. right. by exists None.
Defined.

(** * The session *)

Lemma script_state_main m ss w :
  ss !! "page" = Some "main" -> (script m ss w).1 = ss.
Proof.
  intros Hp. unfold script. rewrite Hp.
  rewrite decide_False by (rewrite Hp; discriminate).
  by rewrite decide_True.
Qed.

Lemma script_state_welcome m ss w :
  ss !! "page" = None \/ ss !! "page" = Some "welcome" ->
  (script m ss w).1 !! "page" = Some (if clicked w then "main" else "welcome").
Proof.
  intros Hp. unfold script.
  assert (Hw : match ss !! "page" with
               | Some _ => ss
               | None => <["page":="welcome"]> ss
               end !! "page" = Some "welcome").
  { destruct Hp as [Hp | Hp]; rewrite Hp; [apply lookup_insert_eq | done]. }
  rewrite decide_True by done.
  destruct (clicked w); [apply lookup_insert_eq | done].
Qed.

(** X12. Nothing is analysed before the user has entered the system: in a
    run that starts on any page but the main one, the detector is not
    called and the store is untouched; the run ends with the welcome page,
    with a rerun request, or with nothing shown. *)
Theorem no_analysis_off_main m ss w h :
  ss !! "page" <> Some "main" ->
  exists o, (script m ss w).2 h = (Ok o, h) /\
            (o = Stopped \/ o = Rerun \/ o = Blank).
Proof.
  intros Hp. unfold script.
  destruct (ss !! "page") as [p |] eqn:Hss.
  - rewrite Hss. destruct (decide (Some p = Some "welcome")) as [_ | _].
    + destruct (clicked w); eexists; split; eauto.
    + rewrite decide_False by done. eexists; split; eauto.
  - rewrite lookup_insert_eq. rewrite decide_True by done.
    destruct (clicked w); eexists; split; eauto.
Qed.

Lemma no_analysis_off_main_witness :
  let w := {| clicked := false; radio_option := "Upload Image";
              uploaded_video := None; uploaded_image := Some (Some 0%nat) |} in
  (∅ : gmap string string) !! "page" <> Some "main" /\
  (script demo_model ∅ w).2 demo_heap = (Ok Stopped, demo_heap).
Proof.
  intros w.
  assert (H1 : (∅ : gmap string string) !! "page" <> Some "main") by discriminate.
  split; [exact H1 |].
  destruct (no_analysis_off_main demo_model ∅ w demo_heap H1) as (o & Ho & _).
  rewrite Ho. f_equal. f_equal.
  assert (Hc : (script demo_model ∅ w).2 demo_heap = (Ok Stopped, demo_heap))
    by reflexivity.
  rewrite Hc in Ho. by injection Ho as <-.
Defined.

(** X13. The page of a session: starting from a new session or from the
    welcome page, after any number of runs the page is the main one
    exactly when the button was clicked in one of them, and the welcome
    page otherwise; once on the main page, no run leaves it. *)
Theorem session_page m ss w ws :
  (ss !! "page" = None \/ ss !! "page" = Some "welcome" ->
   session_after m ss (w :: ws) !! "page"
     = Some (if existsb clicked (w :: ws) then "main" else "welcome")) /\
  (ss !! "page" = Some "main" -> session_after m ss (w :: ws) = ss).
Proof.
  assert (Hmain : forall vs ss0, ss0 !! "page" = Some "main" ->
                                 session_after m ss0 vs = ss0).
  { induction vs as [| v vs IH]; intros ss0 Hp; [done |].
    unfold session_after. simpl. rewrite script_state_main by done.
    by apply IH. }
  split; [| by apply Hmain].
  revert ss w. induction ws as [| w' ws IH]; intros ss w Hp.
  - unfold session_after. simpl. rewrite orb_false_r.
    by apply script_state_welcome.
  - pose proof (script_state_welcome m ss w Hp) as Hstep.
    change (session_after m ss (w :: w' :: ws))
      with (session_after m (script m ss w).1 (w' :: ws)).
    destruct (clicked w) eqn:Hc.
    + rewrite Hmain by done. simpl. by rewrite Hc.
    + rewrite IH by by right. simpl. by rewrite Hc.
Qed.

Lemma session_page_witness :
  let idle := {| clicked := false; radio_option := "Upload Video";
                 uploaded_video := None; uploaded_image := None |} in
  let click := {| clicked := true; radio_option := "Upload Video";
                  uploaded_video := None; uploaded_image := None |} in
  ((∅ : gmap string string) !! "page" = None \/
   (∅ : gmap string string) !! "page" = Some "welcome") /\
  session_after demo_model ∅ [idle; click; idle] !! "page" = Some "main".
Proof.
  intros idle click.
  assert (H1 : (∅ : gmap string string) !! "page" = None \/
               (∅ : gmap string string) !! "page" = Some "welcome")
    by (left; reflexivity).
  split; [exact H1 |].
  exact (proj1 (session_page demo_model ∅ idle [click; idle]) H1).
Defined.

(** X14. The rerun requested by the button ends: a run that asks for a
    rerun has moved the session to the main page, so the next run,
    whatever its widget values, keeps the session state and renders the
    main page instead of asking again. *)
Theorem rerun_renders_main m ss w h h1 w' :
  (script m ss w).2 h = (Ok Rerun, h1) ->
  let ss' := (script m ss w).1 in
  ss' !! "page" = Some "main" /\
  (script m ss' w').1 = ss' /\
  (script m ss' w').2 =
    (let* (locals, chart) := main_page m w' in pure (Rendered locals chart)).
Proof.
  intros Hrun ss'.
  assert (Hp : ss' !! "page" = Some "main").
  { subst ss'. unfold script in *.
    destruct (decide (_ = Some "welcome")) as [_ | _].
    - destruct (clicked w); [apply lookup_insert_eq | done].
    - destruct (decide (_ = Some "main")) as [_ | _]; [| done].
      simpl in Hrun. unfold bind in Hrun.
      destruct (main_page m w h) as [[[locals chart] | e] h2]; done. }
  split; [done |]. split; [by apply script_state_main |].
  unfold script. rewrite Hp.
  rewrite decide_False by (rewrite Hp; discriminate). by rewrite decide_True.
Qed.

Lemma rerun_renders_main_witness :
  let click := {| clicked := true; radio_option := "Upload Video";
                  uploaded_video := None; uploaded_image := None |} in
  (script demo_model ∅ click).2 demo_heap = (Ok Rerun, demo_heap) /\
  (script demo_model ∅ click).1 !! "page" = Some "main".
Proof.
  intros click.
  assert (H1 : (script demo_model ∅ click).2 demo_heap = (Ok Rerun, demo_heap))
    by reflexivity.
  split; [exact H1 |].
  exact (proj1 (rerun_renders_main demo_model ∅ click demo_heap demo_heap click H1)).
Defined.

(** * The annotated frame *)



